(** * Key bindings of the console shell

    A shallow embedding of [KeyBindingManager.create_key_bindings]
    (src/govee_artnet_console/shell/keybindings.py): the handlers as state
    transformers over the shell and the application, the binding table in
    registration order, and the properties of both. *)

From Stdlib Require Import ZArith List String Ascii Bool Lia Floats.
Import ListNotations.

Local Open Scope Z_scope.

(** ** Text primitives *)

(** The characters that Python writes as backslash-n and backslash-033. *)
Definition nl : string := String (ascii_of_nat 10) EmptyString.
Definition esc : string := String (ascii_of_nat 27) EmptyString.

Definition slen (s : string) : Z := Z.of_nat (String.length s).

(** Python's [max(a, b)] on floats: the first argument is kept unless the
    second compares strictly greater (so a NaN second argument is dropped). *)
Definition py_max (a b : float) : float :=
  if (a <? b)%float then b else a.

(** ** The text buffer of the rendering surface

    [output_buffer], [input_buffer] and [log_tail_buffer] are prompt_toolkit
    [Buffer] objects: a text and a cursor.  The handlers use four of their
    operations: the [cursor_position] property (whose setter keeps the cursor
    inside the text), [reset], [set_document] and [insert_text]. *)
Module Buffer.

Record t : Type := mk { text : string; cursor_position : Z }.

Definition len (b : t) : Z := slen (text b).

(** A buffer whose cursor is inside its text. *)
Definition wf (b : t) : Prop := 0 <= cursor_position b <= len b.

(** The [cursor_position] setter: a value past the end is replaced by the
    length of the text, a negative one by 0. *)
Definition set_cursor_position (b : t) (value : Z) : t :=
  let value := if len b <? value then len b else value in
  let value := if value <? 0 then 0 else value in
  mk (text b) value.

(** [reset()]: the buffer gets an empty document. *)
Definition reset (_ : t) : t := mk EmptyString 0.

(** [set_document(Document(s))]: the text is replaced and the cursor of a
    document built from a text alone is at its end. *)
Definition set_document (_ : t) (s : string) : t := mk s (slen s).

(** [insert_text(data)]: [data] goes in at the cursor, which moves past it. *)
Definition insert_text (b : t) (data : string) : t :=
  let c := Z.to_nat (cursor_position b) in
  let n := String.length (text b) in
  mk (substring 0 c (text b) ++ data ++ substring c (n - c) (text b))%string
     (cursor_position b + slen data).

End Buffer.

(** ** Mode controllers *)

(** Modelled from the spec: the log-tail controller of the shell (its module
    is not among the files verified here).  Section 3 gives its fields and 4.3
    says that [enableFollowTail()] sets [followTail] to true. *)
Module LogTailController.

Record t : Type := mk
  { level_filter : option string;
    logger_filter : option string;
    follow_tail : bool }.

Definition enable_follow_tail (c : t) : t :=
  mk (level_filter c) (logger_filter c) true.

End LogTailController.

(** Modelled from the spec: the watch controller (its module is not among
    the files verified here).  Section 3: [refreshInterval] is clamped to a
    minimum of 0.5; section 8: [setInterval(0.1)] results in 0.5 and
    [setInterval(5.0)] in 5.0. *)
Module WatchController.

Record t : Type := mk { refresh_interval : float; running : bool }.

Definition floor_interval : float := 0.5%float.

Definition set_interval (c : t) (interval : float) : t :=
  mk (py_max floor_interval interval) (running c).

End WatchController.

(** Modelled from the spec: the log-view controller (its module is not among
    the files verified here).  Section 3 gives its fields; section 4.5 its
    operations: [navigatePage] over first, prev, next and last, saturating at
    page 0 and at the last known page; [cycleLevelFilter] through a fixed
    ordered cycle of severities plus an unfiltered state, wrapping after the
    last; [setLoggerFilter]; [toggleFollowMode], which re-pages to the last
    page when follow mode is entered.  The spec does not name the severities:
    they are the parameter [severities] of the cycle. *)
Module LogViewController.

Record t : Type := mk
  { page : Z;
    last_page : Z;
    level_filter : option string;
    logger_filter : option string;
    search_pattern : option string;
    follow_mode : bool }.

(** The targets, which the handlers pass as the strings first, prev, next
    and last. *)
Inductive target : Type := First | Prev | Next | Last.

Definition with_page (c : t) (p : Z) : t :=
  mk p (last_page c) (level_filter c) (logger_filter c) (search_pattern c)
     (follow_mode c).

Definition navigate_page (c : t) (tg : target) : t :=
  match tg with
  | First => with_page c 0
  | Prev => with_page c (Z.max 0 (page c - 1))
  | Next => with_page c (Z.min (last_page c) (page c + 1))
  | Last => with_page c (last_page c)
  end.

Definition filter_eqb (a b : option string) : bool :=
  match a, b with
  | None, None => true
  | Some x, Some y => String.eqb x y
  | _, _ => false
  end.

(** Position of the first occurrence of [x] in [l]. *)
Fixpoint index_of (x : option string) (l : list (option string)) : option nat :=
  match l with
  | [] => None
  | y :: l' =>
      if filter_eqb x y then Some O
      else match index_of x l' with
           | Some i => Some (S i)
           | None => None
           end
  end.

(** The cycle: the unfiltered state, then the severities in order. *)
Definition level_cycle (severities : list string) : list (option string) :=
  None :: map Some severities.

(** One step of the cycle.  A filter that is not in the cycle restarts it at
    the unfiltered state. *)
Definition next_level (severities : list string) (f : option string)
  : option string :=
  let cyc := level_cycle severities in
  match index_of f cyc with
  | Some i => nth ((i + 1) mod List.length cyc)%nat cyc None
  | None => None
  end.

Definition cycle_level_filter (severities : list string) (c : t) : t :=
  mk (page c) (last_page c) (next_level severities (level_filter c))
     (logger_filter c) (search_pattern c) (follow_mode c).

Definition set_logger_filter (c : t) (v : option string) : t :=
  mk (page c) (last_page c) (level_filter c) v (search_pattern c)
     (follow_mode c).

Definition toggle_follow_mode (c : t) : t :=
  let f := negb (follow_mode c) in
  mk (if f then last_page c else page c) (last_page c) (level_filter c)
     (logger_filter c) (search_pattern c) f.

End LogViewController.

(** ** The shell and the application *)

(** Modelled from the spec: the mode of the session (section 3: exactly one of
    four is active).  The shell class itself is not among the files
    verified here; the guards of the bindings read its attributes
    [in_log_tail_mode], [in_watch_mode] and [in_log_view_mode]. *)
Inductive Mode : Type := Normal | LogTail | Watch | LogView.

Definition Mode_eqb (a b : Mode) : bool :=
  match a, b with
  | Normal, Normal | LogTail, LogTail | Watch, Watch | LogView, LogView => true
  | _, _ => false
  end.

(** The attributes of the shell that the bindings read or write. *)
Record Shell : Type := mkShell
  { mode : Mode;
    follow_tail : bool;
    input_buffer : Buffer.t;
    output_buffer : Buffer.t;
    log_tail_buffer : Buffer.t;
    log_tail_controller : option LogTailController.t;
    watch_controller : option WatchController.t;
    log_view_controller : option LogViewController.t }.

Definition in_log_tail_mode (sh : Shell) : bool := Mode_eqb (mode sh) LogTail.
Definition in_watch_mode (sh : Shell) : bool := Mode_eqb (mode sh) Watch.
Definition in_log_view_mode (sh : Shell) : bool := Mode_eqb (mode sh) LogView.

(** The coroutines that handlers hand to [asyncio.create_task]. *)
Inductive Task : Type :=
  | exit_log_tail_mode
  | exit_watch_mode
  | exit_log_view_mode
  | log_view_refresh.

(** What a handler reaches through [event.app]: the exit result, the redraw
    requests, the height of the terminal, and the tasks created so far
    (newest last). *)
Record App : Type := mkApp
  { exit_result : option bool;
    invalidations : nat;
    rows : Z;
    tasks : list Task }.

Record State : Type := mkState { shell : Shell; app : App }.

Definition set_follow_tail (v : bool) (sh : Shell) : Shell :=
  mkShell (mode sh) v (input_buffer sh) (output_buffer sh) (log_tail_buffer sh)
          (log_tail_controller sh) (watch_controller sh) (log_view_controller sh).

Definition set_input_buffer (b : Buffer.t) (sh : Shell) : Shell :=
  mkShell (mode sh) (follow_tail sh) b (output_buffer sh) (log_tail_buffer sh)
          (log_tail_controller sh) (watch_controller sh) (log_view_controller sh).

Definition set_output_buffer (b : Buffer.t) (sh : Shell) : Shell :=
  mkShell (mode sh) (follow_tail sh) (input_buffer sh) b (log_tail_buffer sh)
          (log_tail_controller sh) (watch_controller sh) (log_view_controller sh).

Definition set_log_tail_buffer (b : Buffer.t) (sh : Shell) : Shell :=
  mkShell (mode sh) (follow_tail sh) (input_buffer sh) (output_buffer sh) b
          (log_tail_controller sh) (watch_controller sh) (log_view_controller sh).

Definition set_log_tail_controller (c : LogTailController.t) (sh : Shell) : Shell :=
  mkShell (mode sh) (follow_tail sh) (input_buffer sh) (output_buffer sh)
          (log_tail_buffer sh) (Some c) (watch_controller sh)
          (log_view_controller sh).

Definition set_watch_controller (c : WatchController.t) (sh : Shell) : Shell :=
  mkShell (mode sh) (follow_tail sh) (input_buffer sh) (output_buffer sh)
          (log_tail_buffer sh) (log_tail_controller sh) (Some c)
          (log_view_controller sh).

Definition set_log_view_controller (c : LogViewController.t) (sh : Shell) : Shell :=
  mkShell (mode sh) (follow_tail sh) (input_buffer sh) (output_buffer sh)
          (log_tail_buffer sh) (log_tail_controller sh) (watch_controller sh)
          (Some c).

Definition on_shell (f : Shell -> Shell) (st : State) : State :=
  mkState (f (shell st)) (app st).

(** [event.app.invalidate()] *)
Definition invalidate (st : State) : State :=
  let a := app st in
  mkState (shell st) (mkApp (exit_result a) (S (invalidations a)) (rows a) (tasks a)).

(** [event.app.exit(result=r)] *)
Definition app_exit (r : bool) (st : State) : State :=
  let a := app st in
  mkState (shell st) (mkApp (Some r) (invalidations a) (rows a) (tasks a)).

(** [asyncio.create_task(t)] *)
Definition create_task (t : Task) (st : State) : State :=
  let a := app st in
  mkState (shell st) (mkApp (exit_result a) (invalidations a) (rows a) (tasks a ++ [t])).

(** Modelled from the spec: [_append_output] of the shell (not among the files
    verified here).  Section 4.1: the text is appended to the output buffer;
    if [followTail] is true the cursor moves to the end after the append,
    otherwise the scroll position is untouched. *)
Definition _append_output (s : string) (sh : Shell) : Shell :=
  let b := output_buffer sh in
  let t := (Buffer.text b ++ s)%string in
  set_output_buffer
    (Buffer.mk t (if follow_tail sh then slen t else Buffer.cursor_position b)) sh.

(** ** The handlers of [create_key_bindings]

    One definition per decorated function of the source, in its order.  A
    handler maps the state before the keypress to the state after it. *)

Definition quit_hint : string :=
  (nl ++ "[yellow]Use 'exit' or Ctrl+D to quit.[/]" ++ nl)%string.

Definition follow_tail_status (enabled : bool) : string :=
  (nl ++ "[dim]Follow-tail " ++ (if enabled then "enabled" else "disabled")
      ++ "[/]" ++ nl)%string.

Definition filter_notice : string :=
  (esc ++ "[33m[Filter UI not yet implemented - use 'logs tail --level LEVEL --logger LOGGER' to set filters]"
       ++ esc ++ "[0m" ++ nl)%string.

(** Ctrl+C: clear the input, or show a message. *)
Definition handle_ctrl_c (st : State) : State :=
  match Buffer.text (input_buffer (shell st)) with
  | String _ _ =>
      on_shell (fun sh => set_input_buffer (Buffer.reset (input_buffer sh)) sh) st
  | EmptyString => on_shell (_append_output quit_hint) st
  end.

(** Ctrl+D: exit the shell. *)
Definition handle_ctrl_d (st : State) : State := app_exit true st.

(** Ctrl+L: clear the screen. *)
Definition handle_ctrl_l (st : State) : State :=
  invalidate
    (on_shell (fun sh =>
       set_output_buffer (Buffer.set_document (output_buffer sh) EmptyString) sh) st).

(** Ctrl+T: toggle follow-tail. *)
Definition handle_ctrl_t (st : State) : State :=
  on_shell (fun sh =>
    let sh := set_follow_tail (negb (follow_tail sh)) sh in
    _append_output (follow_tail_status (follow_tail sh)) sh) st.

(** The lines of a page: the terminal height less the input and the toolbar. *)
Definition page_rows (st : State) : Z := rows (app st) - 4.

(** Page Up: scroll the output up and disable follow-tail. *)
Definition handle_pageup (st : State) : State :=
  let rows := page_rows st in
  invalidate
    (on_shell (fun sh =>
       let sh := set_follow_tail false sh in
       let new_pos := Z.max 0 (Buffer.cursor_position (output_buffer sh) - rows * 80) in
       set_output_buffer (Buffer.set_cursor_position (output_buffer sh) new_pos) sh) st).

(** Page Down: scroll the output down; at the bottom, re-enable follow-tail. *)
Definition handle_pagedown (st : State) : State :=
  let rows := page_rows st in
  invalidate
    (on_shell (fun sh =>
       let new_pos := Z.min (Buffer.len (output_buffer sh))
                            (Buffer.cursor_position (output_buffer sh) + rows * 80) in
       let sh := set_output_buffer
                   (Buffer.set_cursor_position (output_buffer sh) new_pos) sh in
       if Buffer.len (output_buffer sh) - 10 <=? Buffer.cursor_position (output_buffer sh)
       then set_follow_tail true sh
       else sh) st).

(** Escape and q in log tail mode: leave the mode. *)
Definition handle_log_tail_escape (st : State) : State :=
  create_task exit_log_tail_mode st.

Definition handle_log_tail_q (st : State) : State :=
  create_task exit_log_tail_mode st.

(** End in log tail mode: jump to the bottom and follow the tail. *)
Definition handle_log_tail_end (st : State) : State :=
  match log_tail_controller (shell st) with
  | Some c =>
      invalidate
        (on_shell (set_log_tail_controller (LogTailController.enable_follow_tail c)) st)
  | None => st
  end.

(** f in log tail mode: the filter prompt, for now a message. *)
Definition handle_log_tail_f (st : State) : State :=
  invalidate
    (on_shell (fun sh =>
       set_log_tail_buffer (Buffer.insert_text (log_tail_buffer sh) filter_notice) sh) st).

(** Escape and q in watch mode: leave the mode. *)
Definition handle_watch_escape (st : State) : State :=
  create_task exit_watch_mode st.

Definition handle_watch_q (st : State) : State :=
  create_task exit_watch_mode st.

(** + in watch mode: a shorter refresh interval. *)
Definition handle_watch_plus (st : State) : State :=
  match watch_controller (shell st) with
  | Some c =>
      let new_interval :=
        py_max 0.5%float (WatchController.refresh_interval c - 0.5)%float in
      invalidate
        (on_shell (set_watch_controller (WatchController.set_interval c new_interval)) st)
  | None => st
  end.

(** - in watch mode: a longer refresh interval. *)
Definition handle_watch_minus (st : State) : State :=
  match watch_controller (shell st) with
  | Some c =>
      let new_interval := (WatchController.refresh_interval c + 0.5)%float in
      invalidate
        (on_shell (set_watch_controller (WatchController.set_interval c new_interval)) st)
  | None => st
  end.

(** Escape and q in log view mode: leave the mode. *)
Definition handle_log_view_escape (st : State) : State :=
  create_task exit_log_view_mode st.

Definition handle_log_view_q (st : State) : State :=
  create_task exit_log_view_mode st.

(** The shape shared by the log view handlers: with a controller, update it
    and schedule its refresh; without one, do nothing. *)
Definition with_log_view (f : LogViewController.t -> LogViewController.t)
    (st : State) : State :=
  match log_view_controller (shell st) with
  | Some c => create_task log_view_refresh (on_shell (set_log_view_controller (f c)) st)
  | None => st
  end.

(** Page Up, Page Down, Home and End in log view mode: page navigation. *)
Definition handle_log_view_pageup : State -> State :=
  with_log_view (fun c => LogViewController.navigate_page c LogViewController.Prev).

Definition handle_log_view_pagedown : State -> State :=
  with_log_view (fun c => LogViewController.navigate_page c LogViewController.Next).

Definition handle_log_view_home : State -> State :=
  with_log_view (fun c => LogViewController.navigate_page c LogViewController.First).

Definition handle_log_view_end : State -> State :=
  with_log_view (fun c => LogViewController.navigate_page c LogViewController.Last).

(** l in log view mode: cycle the level filter. *)
Definition handle_log_view_l (severities : list string) : State -> State :=
  with_log_view (LogViewController.cycle_level_filter severities).

(** c in log view mode: clear the logger filter. *)
Definition handle_log_view_c : State -> State :=
  with_log_view (fun c => LogViewController.set_logger_filter c None).

(** r in log view mode: refresh. *)
Definition handle_log_view_r (st : State) : State :=
  match log_view_controller (shell st) with
  | Some _ => create_task log_view_refresh st
  | None => st
  end.

(** Space in log view mode: toggle follow mode. *)
Definition handle_log_view_space : State -> State :=
  with_log_view LogViewController.toggle_follow_mode.

(** f, / and ? in log view mode: the body of each is [pass]. *)
Definition handle_log_view_f (st : State) : State := st.
Definition handle_log_view_slash (st : State) : State := st.
Definition handle_log_view_question (st : State) : State := st.

(** ** The binding table *)

(** The handlers, named after their key and mode. *)
Inductive Handler : Type :=
  | h_ctrl_c | h_ctrl_d | h_ctrl_l | h_ctrl_t | h_pageup | h_pagedown
  | h_log_tail_escape | h_log_tail_q | h_log_tail_end | h_log_tail_f
  | h_watch_escape | h_watch_q | h_watch_plus | h_watch_minus
  | h_log_view_escape | h_log_view_q | h_log_view_pageup | h_log_view_pagedown
  | h_log_view_home | h_log_view_end | h_log_view_l | h_log_view_c
  | h_log_view_r | h_log_view_space | h_log_view_f | h_log_view_slash
  | h_log_view_question.

Definition run (severities : list string) (h : Handler) : State -> State :=
  match h with
  | h_ctrl_c => handle_ctrl_c
  | h_ctrl_d => handle_ctrl_d
  | h_ctrl_l => handle_ctrl_l
  | h_ctrl_t => handle_ctrl_t
  | h_pageup => handle_pageup
  | h_pagedown => handle_pagedown
  | h_log_tail_escape => handle_log_tail_escape
  | h_log_tail_q => handle_log_tail_q
  | h_log_tail_end => handle_log_tail_end
  | h_log_tail_f => handle_log_tail_f
  | h_watch_escape => handle_watch_escape
  | h_watch_q => handle_watch_q
  | h_watch_plus => handle_watch_plus
  | h_watch_minus => handle_watch_minus
  | h_log_view_escape => handle_log_view_escape
  | h_log_view_q => handle_log_view_q
  | h_log_view_pageup => handle_log_view_pageup
  | h_log_view_pagedown => handle_log_view_pagedown
  | h_log_view_home => handle_log_view_home
  | h_log_view_end => handle_log_view_end
  | h_log_view_l => handle_log_view_l severities
  | h_log_view_c => handle_log_view_c
  | h_log_view_r => handle_log_view_r
  | h_log_view_space => handle_log_view_space
  | h_log_view_f => handle_log_view_f
  | h_log_view_slash => handle_log_view_slash
  | h_log_view_question => handle_log_view_question
  end.

(** What [kb.add(key, filter=...)] registers: the key, the guard and the
    handler.  A binding added without a filter has the guard [always]. *)
Record Binding : Type := bind
  { key : string;
    guard : Shell -> bool;
    handler : Handler }.

Definition always (_ : Shell) : bool := true.

(** The table that [create_key_bindings] returns, in registration order. *)
Definition key_bindings : list Binding :=
  [ bind "c-c" always h_ctrl_c;
    bind "c-d" always h_ctrl_d;
    bind "c-l" always h_ctrl_l;
    bind "c-t" always h_ctrl_t;
    bind "pageup" always h_pageup;
    bind "pagedown" always h_pagedown;
    bind "escape" in_log_tail_mode h_log_tail_escape;
    bind "q" in_log_tail_mode h_log_tail_q;
    bind "end" in_log_tail_mode h_log_tail_end;
    bind "f" in_log_tail_mode h_log_tail_f;
    bind "escape" in_watch_mode h_watch_escape;
    bind "q" in_watch_mode h_watch_q;
    bind "+" in_watch_mode h_watch_plus;
    bind "-" in_watch_mode h_watch_minus;
    bind "escape" in_log_view_mode h_log_view_escape;
    bind "q" in_log_view_mode h_log_view_q;
    bind "pageup" in_log_view_mode h_log_view_pageup;
    bind "pagedown" in_log_view_mode h_log_view_pagedown;
    bind "home" in_log_view_mode h_log_view_home;
    bind "end" in_log_view_mode h_log_view_end;
    bind "l" in_log_view_mode h_log_view_l;
    bind "c" in_log_view_mode h_log_view_c;
    bind "r" in_log_view_mode h_log_view_r;
    bind "space" in_log_view_mode h_log_view_space;
    bind "f" in_log_view_mode h_log_view_f;
    bind "/" in_log_view_mode h_log_view_slash;
    bind "?" in_log_view_mode h_log_view_question ]%string.

(** The bindings of key [k] whose guard holds in shell [sh], in registration
    order. *)
Definition enabled (tbl : list Binding) (k : string) (sh : Shell) : list Binding :=
  filter (fun b => String.eqb k (key b) && guard b sh) tbl.

Definition matches (k : string) (sh : Shell) : list Handler :=
  map handler (enabled key_bindings k sh).

(** Dispatch as section 4.2 of the spec words it: the guards are evaluated in
    registration order and the first satisfied binding runs; [None] is a
    keypress passed through to text input. *)
Definition first_match (k : string) (sh : Shell) : option Handler :=
  hd_error (matches k sh).

(** The other end of the same list: the satisfied binding registered last. *)
Definition last_match (k : string) (sh : Shell) : option Handler :=
  hd_error (rev (matches k sh)).

Definition keypress (severities : list string) (k : string) (st : State)
  : option State :=
  match first_match k (shell st) with
  | Some h => Some (run severities h st)
  | None => None
  end.

(** ** Notions used in the statements *)

(** Page Up and Page Down while the log view is active. *)
Definition paging_in_log_view (k : string) (sh : Shell) : bool :=
  in_log_view_mode sh && (String.eqb k "pageup" || String.eqb k "pagedown").

(** The position that Page Up computes, before it is stored. *)
Definition pageup_new_pos (st : State) : Z :=
  Z.max 0 (Buffer.cursor_position (output_buffer (shell st)) - page_rows st * 80).

(** The position that Page Down computes, before it is stored. *)
Definition pagedown_new_pos (st : State) : Z :=
  Z.min (Buffer.len (output_buffer (shell st)))
        (Buffer.cursor_position (output_buffer (shell st)) + page_rows st * 80).

(** The refresh interval of the watch controller after handler [h]. *)
Definition interval_after (h : State -> State) (st : State) : option float :=
  option_map WatchController.refresh_interval (watch_controller (shell (h st))).

(** Python's literal 0.1: the binary64 value closest to one tenth. *)
Definition tenth : float := 0x1.999999999999ap-4%float.

(** ** Sample states *)

Definition empty_buffer : Buffer.t := Buffer.mk EmptyString 0.

Definition sample_log_view : LogViewController.t :=
  LogViewController.mk 0 3 None None None false.

Definition sample_watch : WatchController.t :=
  WatchController.mk 2%float true.

Definition sample_log_tail : LogTailController.t :=
  LogTailController.mk None None false.

Definition normal_shell : Shell :=
  mkShell Normal true empty_buffer empty_buffer empty_buffer None None None.

Definition log_tail_shell : Shell :=
  mkShell LogTail true empty_buffer empty_buffer empty_buffer
          (Some sample_log_tail) None None.

Definition watch_shell : Shell :=
  mkShell Watch true empty_buffer empty_buffer empty_buffer
          None (Some sample_watch) None.

Definition log_view_shell : Shell :=
  mkShell LogView true empty_buffer empty_buffer empty_buffer
          None None (Some sample_log_view).

Definition sample_app : App := mkApp None 0 24 [].

(** A terminal of 24 rows over a text of 2000 characters, the cursor at 100,
    follow-tail off. *)
Definition long_output : Buffer.t :=
  Buffer.mk (string_of_list_ascii (repeat "x"%char 2000)) 100.

(** A shell in normal mode over that text, the cursor at [c] and follow-tail
    at [ft]. *)
Definition scrolled_state (c : Z) (ft : bool) : State :=
  mkState
    (mkShell Normal ft empty_buffer
             (Buffer.mk (Buffer.text long_output) c) empty_buffer None None None)
    sample_app.

(** A shell with [typed] in its input buffer. *)
Definition typing_state (typed : string) : State :=
  mkState
    (mkShell Normal true (Buffer.mk typed (slen typed)) long_output empty_buffer
             None None None)
    sample_app.

(** A shell in log view mode at page [p] of pages 0 to [last]. *)
Definition log_view_at (p last : Z) : State :=
  mkState
    (mkShell LogView false empty_buffer empty_buffer empty_buffer None None
             (Some (LogViewController.mk p last None None None false)))
    sample_app.

(** A shell in watch mode with refresh interval [r]. *)
Definition watching (r : float) : State :=
  mkState
    (mkShell Watch true empty_buffer empty_buffer empty_buffer None
             (Some (WatchController.mk r true)) None)
    sample_app.

(** Four severities for the level cycle. *)
Definition sample_severities : list string :=
  ["DEBUG"; "INFO"; "WARNING"; "ERROR"]%string.

(** ** Notions used in the further properties *)

(** The keys that [create_key_bindings] binds without a filter. *)
Definition global_keys : list string :=
  ["c-c"; "c-d"; "c-l"; "c-t"; "pageup"; "pagedown"]%string.

(** The keys that it binds under the filter of mode [m]. *)
Definition mode_keys (m : Mode) : list string :=
  match m with
  | Normal => []
  | LogTail => ["escape"; "q"; "end"; "f"]
  | Watch => ["escape"; "q"; "+"; "-"]
  | LogView => ["escape"; "q"; "pageup"; "pagedown"; "home"; "end"; "l"; "c";
                "r"; "space"; "f"; "/"; "?"]
  end%string.

(** Whether key [k] is taken by a binding in mode [m] rather than typed. *)
Definition consumed (m : Mode) (k : string) : bool :=
  existsb (String.eqb k) (global_keys ++ mode_keys m).


(** The test that opens the body of the handlers written under
    [if self.shell.<mode>_controller:]; the other handlers have none. *)
Definition controller_test (h : Handler) (sh : Shell) : bool :=
  match h with
  | h_log_tail_end =>
      match log_tail_controller sh with Some _ => true | None => false end
  | h_watch_plus | h_watch_minus =>
      match watch_controller sh with Some _ => true | None => false end
  | h_log_view_pageup | h_log_view_pagedown | h_log_view_home | h_log_view_end
  | h_log_view_l | h_log_view_c | h_log_view_r | h_log_view_space =>
      match log_view_controller sh with Some _ => true | None => false end
  | _ => true
  end.

(** The state [st] with its shell in mode [m]. *)
Definition in_mode (m : Mode) (st : State) : State :=
  let sh := shell st in
  mkState
    (mkShell m (follow_tail sh) (input_buffer sh) (output_buffer sh)
             (log_tail_buffer sh) (log_tail_controller sh) (watch_controller sh)
             (log_view_controller sh))
    (app st).

(** The state [st] on a terminal of [r] rows. *)
Definition on_terminal (r : Z) (st : State) : State :=
  let a := app st in
  mkState (shell st) (mkApp (exit_result a) (invalidations a) r (tasks a)).

(** A log tail buffer with two lines and the cursor after the first. *)
Definition two_lines : Buffer.t :=
  Buffer.mk ("first" ++ nl ++ "second" ++ nl)%string 6.

Definition tailing_state : State :=
  mkState
    (mkShell LogTail true empty_buffer empty_buffer two_lines
             (Some sample_log_tail) None None)
    sample_app.

(** The cursor and the length of the output buffer, and the characters of a
    page (its lines times the assumed line length of 80). *)
Definition out_cursor (st : State) : Z :=
  Buffer.cursor_position (output_buffer (shell st)).

Definition out_len (st : State) : Z := Buffer.len (output_buffer (shell st)).

Definition page_chars (st : State) : Z := page_rows st * 80.

(** The three buffers of the shell have their cursors inside their texts. *)
Definition buffers_wf (sh : Shell) : Prop :=
  Buffer.wf (input_buffer sh) /\ Buffer.wf (output_buffer sh)
  /\ Buffer.wf (log_tail_buffer sh).

(** The log view handlers that end in
    [asyncio.create_task(self.shell.log_view_controller.refresh())]. *)
Definition log_view_actions : list Handler :=
  [h_log_view_pageup; h_log_view_pagedown; h_log_view_home; h_log_view_end;
   h_log_view_l; h_log_view_c; h_log_view_r; h_log_view_space].

(** ** Tactics for the handlers *)

Ltac unfold_handlers :=
  unfold run, handle_ctrl_c, handle_ctrl_d, handle_ctrl_l, handle_ctrl_t,
    handle_pageup, handle_pagedown, handle_log_tail_escape, handle_log_tail_q,
    handle_log_tail_end, handle_log_tail_f, handle_watch_escape, handle_watch_q,
    handle_watch_plus, handle_watch_minus, handle_log_view_escape,
    handle_log_view_q, handle_log_view_pageup, handle_log_view_pagedown,
    handle_log_view_home, handle_log_view_end, handle_log_view_l,
    handle_log_view_c, handle_log_view_r, handle_log_view_space,
    handle_log_view_f, handle_log_view_slash, handle_log_view_question,
    with_log_view, on_shell, invalidate, create_task, app_exit in *.

Ltac split_branches :=
  repeat match goal with
         | |- context [match ?x with _ => _ end] => destruct x eqn:?
         end.

(** Opens state [st] and runs handler [h] on it, one goal per handler and
    branch. *)
Ltac by_handler h st :=
  destruct st as [[?m ?ft ?ib ?ob ?lb ?ltc ?wc ?lvc] [?ex ?inv ?rw ?ts]];
  destruct h; unfold_handlers; cbn [shell app]; split_branches;
  cbn [shell app mode follow_tail input_buffer output_buffer log_tail_buffer
       log_tail_controller watch_controller log_view_controller
       exit_result invalidations rows tasks
       set_follow_tail set_input_buffer set_output_buffer set_log_tail_buffer
       set_log_tail_controller set_watch_controller set_log_view_controller
       _append_output] in *.

(** ** Properties of the binding table *)

Lemma enabled_unknown_key (tbl : list Binding) (k : string) (sh : Shell) :
  ~ In k (map key tbl) -> enabled tbl k sh = [].
Proof.
  induction tbl as [| b tbl IH]; intros Hk; [reflexivity |].
  cbn [enabled filter].
  destruct (String.eqb_spec k (key b)) as [-> | Hne].
  - exfalso. apply Hk. now left.
  - cbn [andb]. apply IH. intros Hin. apply Hk. now right.
Qed.

(** C1, as the spec states it, fails: in log view mode the key pageup has two
    bindings whose guards hold, the unguarded scroll binding and the log view
    binding, and the first in registration order is the scroll binding. *)
Lemma pageup_two_enabled_in_log_view :
  ~ (List.length (matches "pageup" log_view_shell) <= 1)%nat
  /\ matches "pageup" log_view_shell = [h_pageup; h_log_view_pageup]
  /\ first_match "pageup" log_view_shell = Some h_pageup.
Proof.
  repeat split; try reflexivity.
  cbv. intros H. apply le_S_n in H. inversion H.
Qed.

(** C1 (amended): for every key and every mode other than pageup and pagedown
    in log view mode, at most one registered binding has a guard that holds,
    so that the first and the last satisfied binding are the same one; for
    pageup and pagedown in log view mode exactly two hold, the unguarded
    scroll binding first and the log view page binding after it. *)
Theorem at_most_one_enabled_except_paging (k : string) (sh : Shell) :
  if paging_in_log_view k sh
  then matches k sh =
       (if String.eqb k "pageup" then [h_pageup; h_log_view_pageup]
        else [h_pagedown; h_log_view_pagedown])
  else (List.length (matches k sh) <= 1)%nat
       /\ first_match k sh = last_match k sh.
Proof.
  destruct (in_dec string_dec k (map key key_bindings)) as [Hin | Hout].
  - destruct sh as [m ft ib ob lb ltc wc lvc].
    cbn [map key key_bindings] in Hin.
    repeat (destruct Hin as [<- | Hin];
            [destruct m; cbv; repeat split; repeat constructor |]).
    destruct Hin.
  - assert (Hk : String.eqb k "pageup" = false /\ String.eqb k "pagedown" = false).
    { split; apply String.eqb_neq; intros ->; apply Hout; cbn; tauto. }
    destruct Hk as [Hu Hd].
    unfold paging_in_log_view, first_match, last_match, matches.
    rewrite Hu, Hd, andb_false_r, (enabled_unknown_key _ _ _ Hout).
    cbn. split; [lia | reflexivity].
Qed.

(** ** The placeholder handlers *)

Lemma length_append (s1 s2 : string) :
  String.length (s1 ++ s2) = (String.length s1 + String.length s2)%nat.
Proof.
  induction s1 as [| a s1 IH]; cbn; [reflexivity | now rewrite IH].
Qed.

Lemma length_substring (s : string) :
  forall n m, (n + m <= String.length s)%nat ->
              String.length (substring n m s) = m.
Proof.
  induction s as [| a s IH]; intros [| n] [| m] H; cbn in *;
    try reflexivity; try lia.
  - rewrite IH; [reflexivity | lia].
  - apply IH. lia.
  - apply IH. lia.
Qed.

(** Inserting into a buffer whose cursor is inside its text lengthens the text
    by the inserted data and keeps the cursor inside. *)
Lemma insert_text_len (b : Buffer.t) (data : string) :
  Buffer.wf b ->
  Buffer.len (Buffer.insert_text b data) = Buffer.len b + slen data
  /\ Buffer.wf (Buffer.insert_text b data).
Proof.
  unfold Buffer.wf, Buffer.len, slen. intros Hwf.
  assert (E : Buffer.len (Buffer.insert_text b data) = Buffer.len b + slen data).
  { unfold Buffer.len, slen, Buffer.insert_text. cbn [Buffer.text].
    rewrite !length_append, !length_substring by lia. lia. }
  split; [exact E |].
  unfold Buffer.len, slen in E. rewrite E.
  unfold Buffer.insert_text. cbn [Buffer.cursor_position]. unfold slen. lia.
Qed.

(** The f handler of log tail mode shows its notice: the log tail buffer grows
    by the notice and a redraw is requested. *)
Lemma log_tail_f_renders_notice (st : State) :
  Buffer.wf (log_tail_buffer (shell st)) ->
  let st' := handle_log_tail_f st in
  Buffer.len (log_tail_buffer (shell st')) =
    Buffer.len (log_tail_buffer (shell st)) + slen filter_notice
  /\ invalidations (app st') = S (invalidations (app st)).
Proof.
  intros Hwf. cbn. split; [| reflexivity].
  apply (insert_text_len _ filter_notice Hwf).
Qed.

(** C2 (the code misses it): the f, / and ? handlers of log view mode are
    reached by their keys in log view mode and leave the whole state as it
    was: no buffer gets a notice, no redraw is requested and no task is
    created, where the claim has each of them show a notice as f does in log
    tail mode. *)
Theorem log_view_placeholders_change_nothing (severities : list string) (st : State) :
  first_match "f" log_view_shell = Some h_log_view_f
  /\ first_match "/" log_view_shell = Some h_log_view_slash
  /\ first_match "?" log_view_shell = Some h_log_view_question
  /\ run severities h_log_view_f st = st
  /\ run severities h_log_view_slash st = st
  /\ run severities h_log_view_question st = st.
Proof.
  repeat split.
Qed.

(** ** Scrolling the output *)

Lemma set_cursor_position_spec (b : Buffer.t) (v : Z) :
  Buffer.text (Buffer.set_cursor_position b v) = Buffer.text b
  /\ Buffer.cursor_position (Buffer.set_cursor_position b v)
     = Z.max 0 (Z.min (Buffer.len b) v).
Proof.
  unfold Buffer.set_cursor_position. cbn. split; [reflexivity |].
  assert (0 <= Buffer.len b) by (unfold Buffer.len, slen; lia).
  destruct (Z.ltb_spec (Buffer.len b) v);
    [destruct (Z.ltb_spec (Buffer.len b) 0) | destruct (Z.ltb_spec v 0)]; lia.
Qed.

Lemma set_cursor_position_wf (b : Buffer.t) (v : Z) :
  Buffer.wf (Buffer.set_cursor_position b v).
Proof.
  destruct (set_cursor_position_spec b v) as [Ht Hc].
  unfold Buffer.wf, Buffer.len in *. rewrite Ht, Hc.
  assert (0 <= slen (Buffer.text b)) by (unfold slen; lia). lia.
Qed.

(** A position inside the text is stored as it is. *)
Lemma set_cursor_position_inside (b : Buffer.t) (v : Z) :
  0 <= v <= Buffer.len b ->
  Buffer.cursor_position (Buffer.set_cursor_position b v) = v.
Proof.
  intros H. destruct (set_cursor_position_spec b v) as [_ ->]. lia.
Qed.

Lemma handle_pageup_output (st : State) :
  output_buffer (shell (handle_pageup st))
  = Buffer.set_cursor_position (output_buffer (shell st)) (pageup_new_pos st).
Proof. reflexivity. Qed.

Lemma handle_pagedown_output (st : State) :
  output_buffer (shell (handle_pagedown st))
  = Buffer.set_cursor_position (output_buffer (shell st)) (pagedown_new_pos st).
Proof.
  unfold handle_pagedown, pagedown_new_pos. cbn.
  destruct (_ <=? _); reflexivity.
Qed.

Lemma handle_pagedown_follow_tail (st : State) :
  follow_tail (shell (handle_pagedown st))
  = if Buffer.len (output_buffer (shell st)) - 10
       <=? Buffer.cursor_position (output_buffer (shell (handle_pagedown st)))
    then true else follow_tail (shell st).
Proof.
  rewrite handle_pagedown_output.
  unfold handle_pagedown, pagedown_new_pos. cbn.
  destruct (_ <=? _); reflexivity.
Qed.

(** C3: after Page Down on an output buffer of length L, follow-tail is true
    if the resulting cursor is at least L - 10; if the resulting cursor is
    below L - 10 and follow-tail was false, it is still false.  The text, and
    so L, is the same before and after. *)
Theorem pagedown_follow_tail_threshold (st : State) :
  let st' := handle_pagedown st in
  let L := Buffer.len (output_buffer (shell st)) in
  let c' := Buffer.cursor_position (output_buffer (shell st')) in
  Buffer.len (output_buffer (shell st')) = L
  /\ (L - 10 <= c' -> follow_tail (shell st') = true)
  /\ (c' < L - 10 -> follow_tail (shell st) = false ->
      follow_tail (shell st') = false).
Proof.
  cbv zeta. rewrite handle_pagedown_follow_tail.
  split; [now rewrite handle_pagedown_output |].
  destruct (Z.leb_spec
              (Buffer.len (output_buffer (shell st)) - 10)
              (Buffer.cursor_position (output_buffer (shell (handle_pagedown st)))));
    split; intros; try reflexivity; try assumption; lia.
Qed.

Lemma pagedown_follow_tail_threshold_witness :
  follow_tail (shell (handle_pagedown (scrolled_state 500 false))) = true
  /\ follow_tail (shell (handle_pagedown (scrolled_state 100 false))) = false.
Proof.
  split.
  - apply (pagedown_follow_tail_threshold (scrolled_state 500 false)).
    vm_compute. discriminate.
  - apply (pagedown_follow_tail_threshold (scrolled_state 100 false)).
    + vm_compute. reflexivity.
    + reflexivity.
Defined.

(** C5: Page Up sets follow-tail to false whatever it was and wherever the
    cursor is, and for a cursor inside the text and a page of at least no
    line (a terminal of 4 rows or more) the cursor moves up by the page's
    lines times 80 characters, stopping at 0. *)
Theorem pageup_disables_follow_tail (st : State) :
  let st' := handle_pageup st in
  follow_tail (shell st') = false
  /\ (Buffer.wf (output_buffer (shell st)) -> 0 <= page_rows st ->
      Buffer.cursor_position (output_buffer (shell st'))
      = Z.max 0 (Buffer.cursor_position (output_buffer (shell st))
                 - page_rows st * 80)).
Proof.
  cbv zeta. split; [reflexivity |].
  intros Hwf Hrows. rewrite handle_pageup_output.
  apply set_cursor_position_inside.
  unfold pageup_new_pos, Buffer.wf in *. nia.
Qed.

Lemma pageup_disables_follow_tail_witness :
  follow_tail (shell (handle_pageup (scrolled_state 1900 true))) = false
  /\ Buffer.cursor_position
       (output_buffer (shell (handle_pageup (scrolled_state 1900 true)))) = 300
  /\ Buffer.cursor_position
       (output_buffer (shell (handle_pageup (scrolled_state 100 false)))) = 0.
Proof.
  split; [apply (pageup_disables_follow_tail (scrolled_state 1900 true)) |].
  split.
  - rewrite (proj2 (pageup_disables_follow_tail (scrolled_state 1900 true))).
    + reflexivity.
    + vm_compute. split; discriminate.
    + vm_compute. discriminate.
  - rewrite (proj2 (pageup_disables_follow_tail (scrolled_state 100 false))).
    + reflexivity.
    + vm_compute. split; discriminate.
    + vm_compute. discriminate.
Defined.

(** The positions that the two handlers compute are inside the text when the
    cursor was and the page has no negative number of lines, so storing them
    changes nothing. *)
Lemma scroll_new_pos_inside (st : State) :
  Buffer.wf (output_buffer (shell st)) -> 0 <= page_rows st ->
  0 <= pageup_new_pos st <= Buffer.len (output_buffer (shell st))
  /\ 0 <= pagedown_new_pos st <= Buffer.len (output_buffer (shell st)).
Proof.
  unfold Buffer.wf, pageup_new_pos, pagedown_new_pos. intros Hwf Hrows. nia.
Qed.

(** C8: after Page Up and after Page Down the cursor of the output buffer is
    between 0 and the length of its text, for every cursor before, every
    terminal height and every text; the text itself is not changed. *)
Theorem scroll_cursor_in_bounds (st : State) :
  (Buffer.wf (output_buffer (shell (handle_pageup st)))
   /\ Buffer.text (output_buffer (shell (handle_pageup st)))
      = Buffer.text (output_buffer (shell st)))
  /\ (Buffer.wf (output_buffer (shell (handle_pagedown st)))
      /\ Buffer.text (output_buffer (shell (handle_pagedown st)))
         = Buffer.text (output_buffer (shell st))).
Proof.
  rewrite handle_pageup_output, handle_pagedown_output.
  repeat split; try apply set_cursor_position_wf.
Qed.

(** ** Ctrl+C and Ctrl+T *)

(** C9: Ctrl+C never exits: it leaves the application (its exit result, its
    tasks) as it was.  With a non-empty input it resets the input buffer,
    which is then empty, and the output buffer is the one before; with an
    empty input it leaves the input buffer as it was and the output text is
    the one before followed by the hint. *)
Theorem ctrl_c_clears_or_hints (st : State) :
  let st' := handle_ctrl_c st in
  app st' = app st
  /\ exit_result (app st') = exit_result (app st)
  /\ (Buffer.text (input_buffer (shell st)) <> EmptyString ->
      Buffer.text (input_buffer (shell st')) = EmptyString
      /\ output_buffer (shell st') = output_buffer (shell st))
  /\ (Buffer.text (input_buffer (shell st)) = EmptyString ->
      input_buffer (shell st') = input_buffer (shell st)
      /\ Buffer.text (output_buffer (shell st'))
         = (Buffer.text (output_buffer (shell st)) ++ quit_hint)%string).
Proof.
  cbv zeta. unfold handle_ctrl_c.
  destruct (Buffer.text (input_buffer (shell st))) as [| a s] eqn:E; cbn.
  - split; [reflexivity | split; [reflexivity | split]].
    + intros H. now destruct H.
    + intros _. split; reflexivity.
  - split; [reflexivity | split; [reflexivity | split]].
    + intros _. split; reflexivity.
    + intros H. discriminate H.
Qed.

Lemma ctrl_c_clears_or_hints_witness :
  (Buffer.text (input_buffer (shell (handle_ctrl_c (typing_state "devices list"))))
   = EmptyString
   /\ output_buffer (shell (handle_ctrl_c (typing_state "devices list")))
      = long_output)
  /\ (input_buffer (shell (handle_ctrl_c (typing_state EmptyString)))
      = Buffer.mk EmptyString 0
      /\ Buffer.text (output_buffer (shell (handle_ctrl_c (typing_state EmptyString))))
         = (Buffer.text long_output ++ quit_hint)%string).
Proof.
  split.
  - apply (ctrl_c_clears_or_hints (typing_state "devices list")).
    cbn. discriminate.
  - apply (ctrl_c_clears_or_hints (typing_state EmptyString)).
    reflexivity.
Defined.

(** [_append_output] leaves follow-tail alone. *)
Lemma append_output_follow_tail (s : string) (sh : Shell) :
  follow_tail (_append_output s sh) = follow_tail sh.
Proof. reflexivity. Qed.

(** One Ctrl+T: the flag is flipped and the status line of the new value is
    appended to the output. *)
Lemma handle_ctrl_t_once (st : State) :
  follow_tail (shell (handle_ctrl_t st)) = negb (follow_tail (shell st))
  /\ Buffer.text (output_buffer (shell (handle_ctrl_t st)))
     = (Buffer.text (output_buffer (shell st))
        ++ follow_tail_status (negb (follow_tail (shell st))))%string.
Proof. split; reflexivity. Qed.

(** C10: Ctrl+T twice restores follow-tail, from either value, and each of the
    two appends its status line to the output. *)
Theorem ctrl_t_involution (st : State) :
  let ft := follow_tail (shell st) in
  follow_tail (shell (handle_ctrl_t (handle_ctrl_t st))) = ft
  /\ Buffer.text (output_buffer (shell (handle_ctrl_t (handle_ctrl_t st))))
     = ((Buffer.text (output_buffer (shell st)) ++ follow_tail_status (negb ft))
        ++ follow_tail_status ft)%string.
Proof.
  cbv zeta.
  destruct (handle_ctrl_t_once (handle_ctrl_t st)) as [F2 T2].
  destruct (handle_ctrl_t_once st) as [F1 T1].
  rewrite F2, T2, F1, T1, negb_involutive. split; reflexivity.
Qed.

(** ** Page navigation in log view mode *)

(** C6: with a log view controller at page 0, the Page Up handler of log view
    mode (navigate to prev) leaves the page at 0; with one at its last known
    page, the Page Down handler (navigate to next) leaves the page where it
    is.  Neither fails: each yields a controller. *)
Theorem page_navigation_saturates (st : State) (c : LogViewController.t) :
  log_view_controller (shell st) = Some c ->
  (LogViewController.page c = 0 ->
   option_map LogViewController.page
     (log_view_controller (shell (handle_log_view_pageup st))) = Some 0)
  /\ (LogViewController.page c = LogViewController.last_page c ->
      option_map LogViewController.page
        (log_view_controller (shell (handle_log_view_pagedown st)))
      = Some (LogViewController.page c)).
Proof.
  intros Hc.
  unfold handle_log_view_pageup, handle_log_view_pagedown, with_log_view.
  rewrite Hc. cbn. split; intros H; f_equal; lia.
Qed.

Lemma page_navigation_saturates_witness :
  option_map LogViewController.page
    (log_view_controller (shell (handle_log_view_pageup (log_view_at 0 7)))) = Some 0
  /\ option_map LogViewController.page
       (log_view_controller (shell (handle_log_view_pagedown (log_view_at 7 7))))
     = Some 7.
Proof.
  split.
  - apply (proj1 (page_navigation_saturates (log_view_at 0 7) _ eq_refl)).
    reflexivity.
  - apply (proj2 (page_navigation_saturates (log_view_at 7 7) _ eq_refl)).
    reflexivity.
Defined.

(** ** The level filter cycle *)

Module LevelCycle.
Import LogViewController.

Lemma filter_eqb_spec (a b : option string) : reflect (a = b) (filter_eqb a b).
Proof.
  destruct a as [x |], b as [y |]; cbn; try (constructor; congruence).
  destruct (String.eqb_spec x y); constructor; congruence.
Qed.

(** In a list without repetition the first occurrence of its [i]-th element
    is at [i]. *)
Lemma index_of_nth (l : list (option string)) :
  NoDup l ->
  forall i d, (i < List.length l)%nat -> index_of (nth i l d) l = Some i.
Proof.
  induction 1 as [| y l Hy Hl IH]; intros i d Hi; cbn in Hi; [lia |].
  destruct i as [| i]; cbn.
  - destruct (filter_eqb_spec y y); congruence.
  - destruct (filter_eqb_spec (nth i l d) y) as [E | _].
    + exfalso. apply Hy. rewrite <- E. apply nth_In. lia.
    + rewrite IH by lia. reflexivity.
Qed.

Lemma level_cycle_NoDup (severities : list string) :
  NoDup severities -> NoDup (level_cycle severities).
Proof.
  intros H. unfold level_cycle. constructor.
  - rewrite in_map_iff. intros (x & Hx & _). discriminate Hx.
  - induction H as [| x l Hx Hl IH]; cbn; constructor; [| exact IH].
    rewrite in_map_iff. intros (y & Hy & Hin). congruence.
Qed.

Lemma level_cycle_length (severities : list string) :
  List.length (level_cycle severities) = S (List.length severities).
Proof. unfold level_cycle. cbn. now rewrite length_map. Qed.

Section Steps.
Variable severities : list string.
Hypothesis distinct : NoDup severities.

Lemma next_level_nth (i : nat) :
(i < List.length (level_cycle severities))%nat ->
next_level severities (nth i (level_cycle severities) None)
= nth ((i + 1) mod List.length (level_cycle severities))
      (level_cycle severities) None.
Proof.
intros Hi. unfold next_level.
rewrite index_of_nth; [reflexivity | | exact Hi].
apply level_cycle_NoDup, distinct.
Qed.

(** [k] steps from the [i]-th state lead to state [i + k], counted round the
  cycle. *)
Lemma iter_next_level_nth (k i : nat) :
(i < List.length (level_cycle severities))%nat ->
Nat.iter k (next_level severities) (nth i (level_cycle severities) None)
= nth ((i + k) mod List.length (level_cycle severities))
      (level_cycle severities) None.
Proof.
intros Hi. induction k as [| k IH].
- change (Nat.iter 0 (next_level severities) ?x) with x.
  now rewrite Nat.add_0_r, Nat.mod_small.
- rewrite Nat.iter_succ, IH, next_level_nth.
  + rewrite Nat.Div0.add_mod_idemp_l. f_equal. f_equal. lia.
  + apply Nat.mod_upper_bound. lia.
Qed.

Lemma next_level_period (f : option string) :
In f (level_cycle severities) ->
Nat.iter (List.length (level_cycle severities)) (next_level severities) f = f.
Proof.
intros Hf. destruct (In_nth _ _ None Hf) as (i & Hi & <-).
rewrite iter_next_level_nth by exact Hi.
replace (i + List.length (level_cycle severities))%nat
  with (i + 1 * List.length (level_cycle severities))%nat by lia.
now rewrite Nat.Div0.mod_add, Nat.mod_small.
Qed.

Lemma iter_cycle_level_filter (k : nat) (c : t) :
Nat.iter k (cycle_level_filter severities) c
= mk (page c) (last_page c)
     (Nat.iter k (next_level severities) (level_filter c))
     (logger_filter c) (search_pattern c) (follow_mode c).
Proof.
induction k as [| k IH]; [now destruct c |].
rewrite !Nat.iter_succ, IH. reflexivity.
Qed.

End Steps.

End LevelCycle.

(** C7: the level filter cycle has period N, the number of its states (the
    severities and the unfiltered state): from every filter of the cycle, N
    applications of [cycle_level_filter] give back the controller, and so the
    filter, that they started from.  The severities are distinct. *)
Theorem cycle_level_filter_period (severities : list string)
    (c : LogViewController.t) :
  NoDup severities ->
  In (LogViewController.level_filter c) (LogViewController.level_cycle severities) ->
  let N := S (List.length severities) in
  Nat.iter N (LogViewController.cycle_level_filter severities) c = c.
Proof.
  intros Hd Hin. cbv zeta.
  rewrite <- LevelCycle.level_cycle_length, LevelCycle.iter_cycle_level_filter.
  rewrite LevelCycle.next_level_period by assumption.
  now destruct c.
Qed.

Lemma sample_severities_distinct : NoDup sample_severities.
Proof.
  unfold sample_severities.
  repeat (constructor; [cbn; intuition discriminate |]). constructor.
Defined.

Lemma cycle_level_filter_period_witness :
  Nat.iter 5 (LogViewController.cycle_level_filter sample_severities)
    (LogViewController.mk 2 9 (Some "WARNING"%string) None None false)
  = LogViewController.mk 2 9 (Some "WARNING"%string) None None false.
Proof.
  apply (cycle_level_filter_period sample_severities
           (LogViewController.mk 2 9 (Some "WARNING"%string) None None false)
           sample_severities_distinct).
  cbn. tauto.
Defined.

(** ** The refresh interval of watch mode *)

Lemma float_ltb_leb (x y : float) :
  (x <? y)%float = true -> (x <=? y)%float = true.
Proof.
  rewrite ltb_spec, leb_spec. unfold SFltb, SFleb.
  destruct (SFcompare (Prim2SF x) (Prim2SF y)) as [[| |] |]; congruence.
Qed.

(** The floor holds for every float, NaN and the infinities included. *)
Lemma py_max_floor (x : float) :
  (0.5 <=? py_max 0.5 x)%float = true.
Proof.
  unfold py_max. destruct (0.5 <? x)%float eqn:E.
  - apply float_ltb_leb, E.
  - reflexivity.
Qed.

Lemma py_max_floor_idem (x : float) :
  py_max 0.5 (py_max 0.5 x) = py_max 0.5 x.
Proof.
  unfold py_max. destruct (0.5 <? x)%float eqn:E.
  - now rewrite E.
  - reflexivity.
Qed.

Lemma py_max_above (x : float) :
  (0.5 <? x)%float = true -> py_max 0.5 x = x.
Proof. unfold py_max. now intros ->. Qed.

(** What the two handlers store, for every interval before. *)
Lemma watch_handlers_store (st : State) (c : WatchController.t) :
  watch_controller (shell st) = Some c ->
  let r := WatchController.refresh_interval c in
  interval_after handle_watch_plus st = Some (py_max 0.5 (r - 0.5))%float
  /\ interval_after handle_watch_minus st = Some (py_max 0.5 (r + 0.5))%float.
Proof.
  intros Hc. unfold interval_after, handle_watch_plus, handle_watch_minus.
  rewrite Hc. cbn. unfold WatchController.floor_interval.
  now rewrite py_max_floor_idem.
Qed.

(** C4: with r the refresh interval of the watch controller, the + handler
    sets the interval to max(0.5, r - 0.5), which is never below 0.5;
    [set_interval(0.1)] gives 0.5; the - handler sets the interval to r + 0.5,
    whatever its size, as long as that sum is above the floor of 0.5 (as it
    is for every interval that respects the floor). *)
Theorem watch_interval_adjustment (st : State) (c : WatchController.t) :
  watch_controller (shell st) = Some c ->
  let r := WatchController.refresh_interval c in
  interval_after handle_watch_plus st = Some (py_max 0.5 (r - 0.5))%float
  /\ (0.5 <=? py_max 0.5 (r - 0.5))%float = true
  /\ WatchController.refresh_interval (WatchController.set_interval c tenth)
     = 0.5%float
  /\ ((0.5 <? r + 0.5)%float = true ->
      interval_after handle_watch_minus st = Some (r + 0.5)%float).
Proof.
  intros Hc r. destruct (watch_handlers_store st c Hc) as [Hp Hm].
  split; [exact Hp |]. split; [apply py_max_floor |]. split; [reflexivity |].
  intros Hr. rewrite Hm. f_equal. apply py_max_above, Hr.
Qed.

Lemma watch_interval_adjustment_witness :
  interval_after handle_watch_plus (watching 2) = Some 1.5%float
  /\ interval_after handle_watch_plus (watching 0.75) = Some 0.5%float
  /\ interval_after handle_watch_minus (watching 2) = Some 2.5%float.
Proof.
  split; [| split].
  - exact (proj1 (watch_interval_adjustment (watching 2) _ eq_refl)).
  - exact (proj1 (watch_interval_adjustment (watching 0.75) _ eq_refl)).
  - apply (watch_interval_adjustment (watching 2) _ eq_refl).
    vm_compute. reflexivity.
Defined.

(** ** Further properties of the binding table *)

(** Every enabled handler comes from a binding of the table whose guard
    holds. *)
Lemma matches_in_table (k : string) (sh : Shell) (h : Handler) :
  In h (matches k sh) ->
  exists b, In b key_bindings /\ handler b = h /\ key b = k /\ guard b sh = true.
Proof.
  unfold matches, enabled. rewrite in_map_iff.
  intros (b & Hh & Hb). apply filter_In in Hb. destruct Hb as [Hb Hg].
  apply andb_true_iff in Hg. destruct Hg as [Hk Hg].
  apply String.eqb_eq in Hk. exists b. auto.
Qed.

Lemma consumed_bound_key (m : Mode) (k : string) :
  consumed m k = true -> In k (map key key_bindings).
Proof.
  unfold consumed. rewrite existsb_exists. intros (x & Hx & E).
  apply String.eqb_eq in E. subst x.
  destruct m; cbn in Hx |- *; intuition auto.
Qed.

Lemma first_match_consumed (k : string) (sh : Shell) :
  match first_match k sh with Some _ => true | None => false end
  = consumed (mode sh) k.
Proof.
  destruct (in_dec string_dec k (map key key_bindings)) as [Hin | Hout].
  - destruct sh as [m ft ib ob lb ltc wc lvc].
    cbn [map key key_bindings] in Hin. cbn [mode].
    repeat (destruct Hin as [<- | Hin]; [destruct m; reflexivity |]).
    destruct Hin.
  - unfold first_match, matches.
    rewrite (enabled_unknown_key _ _ _ Hout). cbn [map hd_error].
    destruct (consumed (mode sh) k) eqn:E; [| reflexivity].
    exfalso. apply Hout. eapply consumed_bound_key, E.
Qed.

(** X1: a keypress is passed through to text input exactly when its key is
    neither one of the six keys bound without a filter nor one of the keys
    bound under the filter of the current mode; in normal mode only the six
    are taken, so letters such as q and f are typed. *)
Theorem keypress_pass_through (severities : list string) (k : string) (st : State) :
  keypress severities k st = None <-> consumed (mode (shell st)) k = false.
Proof.
  unfold keypress. rewrite <- first_match_consumed.
  destruct (first_match k (shell st)); split; intros H;
    discriminate H || reflexivity.
Qed.



(** ** What no handler does *)

(** X4: no handler changes the mode or the terminal height: a keypress never
    switches modes by itself, it can only create the task that does. *)
Theorem handlers_keep_mode (severities : list string) (h : Handler) (st : State) :
  mode (shell (run severities h st)) = mode (shell st)
  /\ rows (app (run severities h st)) = rows (app st).
Proof.
  by_handler h st; split; reflexivity.
Qed.

(** X5: only the Ctrl+D handler ends the session: every other handler leaves
    the exit result of the application as it was. *)
Theorem only_ctrl_d_exits (severities : list string) (h : Handler) (st : State) :
  h <> h_ctrl_d ->
  exit_result (app (run severities h st)) = exit_result (app st).
Proof.
  intros Hh. by_handler h st; try reflexivity. now destruct Hh.
Qed.

Lemma only_ctrl_d_exits_witness :
  exit_result (app (run [] h_log_view_q (mkState log_view_shell sample_app))) = None.
Proof.
  apply (only_ctrl_d_exits [] h_log_view_q (mkState log_view_shell sample_app)).
  discriminate.
Defined.

(** X6: a handler creates at most one task, added after the ones already
    there, requests at most one redraw, and never does both. *)
Theorem handlers_one_task_or_redraw (severities : list string) (h : Handler)
    (st : State) :
  let st' := run severities h st in
  (tasks (app st') = tasks (app st)
   /\ (invalidations (app st') = invalidations (app st)
       \/ invalidations (app st') = S (invalidations (app st))))
  \/ (exists t, tasks (app st') = tasks (app st) ++ [t])
     /\ invalidations (app st') = invalidations (app st).
Proof.
  cbv zeta. by_handler h st;
    first [ left; split; [reflexivity | auto]
          | right; split; [eexists; reflexivity | reflexivity] ].
Qed.

(** X7: a handler that works on a mode controller does nothing at all when
    the shell has no controller of that kind: the state is the one before (no
    failure, no task, no redraw). *)
Theorem no_controller_no_effect (severities : list string) (h : Handler)
    (st : State) :
  controller_test h (shell st) = false ->
  run severities h st = st.
Proof.
  intros Hh.
  destruct st as [[m ft ib ob lb ltc wc lvc] a].
  destruct h; cbn in Hh; try discriminate Hh;
    unfold_handlers; cbn [shell log_tail_controller watch_controller
                          log_view_controller];
    match goal with
    | |- context [match ?x with _ => _ end] => destruct x
    end; try discriminate Hh; reflexivity.
Qed.

Lemma no_controller_no_effect_witness :
  run [] h_watch_plus (mkState normal_shell sample_app)
  = mkState normal_shell sample_app.
Proof.
  apply (no_controller_no_effect [] h_watch_plus (mkState normal_shell sample_app)).
  reflexivity.
Defined.

(** ** Which keys reach which part of the shell *)

(** X8: whatever binding of whatever key is enabled, its handler changes the
    watch controller only in watch mode, the log view controller only in log
    view mode, and the log tail controller and the log tail buffer only in log
    tail mode. *)
Theorem controllers_change_in_their_mode (severities : list string) (k : string)
    (h : Handler) (st : State) :
  In h (matches k (shell st)) ->
  let st' := run severities h st in
  (mode (shell st) <> Watch ->
   watch_controller (shell st') = watch_controller (shell st))
  /\ (mode (shell st) <> LogView ->
      log_view_controller (shell st') = log_view_controller (shell st))
  /\ (mode (shell st) <> LogTail ->
      log_tail_controller (shell st') = log_tail_controller (shell st)
      /\ log_tail_buffer (shell st') = log_tail_buffer (shell st)).
Proof.
  intros Hin. apply matches_in_table in Hin.
  destruct Hin as (b & Hb & <- & _ & Hg). cbv zeta.
  cbn [key_bindings In] in Hb.
  repeat (destruct Hb as [<- | Hb];
          [ cbn [handler guard] in *;
            (split; [intros Hm | split; [intros Hm | intros Hm]]);
            try (exfalso; apply Hm; revert Hg;
                 unfold in_watch_mode, in_log_view_mode, in_log_tail_mode;
                 destruct (mode (shell st)); intros Hg;
                 (reflexivity || discriminate Hg));
            destruct st as [[m ft ib ob lb ltc wc lvc] [ex inv rw ts]];
            unfold_handlers; cbn [shell app]; split_branches;
            try split; reflexivity
          | ]).
  destruct Hb.
Qed.

Lemma controllers_change_in_their_mode_witness :
  watch_controller (shell (run [] h_pagedown (in_mode LogTail (watching 2))))
  = Some (WatchController.mk 2 true).
Proof.
  apply (controllers_change_in_their_mode [] "pagedown" h_pagedown
           (in_mode LogTail (watching 2))).
  - cbn. tauto.
  - discriminate.
Defined.

(** X9: only the six keys bound without a filter reach the input buffer, the
    output buffer or follow-tail: the handler of any other enabled binding,
    in any mode, leaves the three as they were; and among all keys only Ctrl+C
    changes the input buffer. *)
Theorem mode_keys_leave_console (severities : list string) (k : string)
    (h : Handler) (st : State) :
  In h (matches k (shell st)) ->
  let st' := run severities h st in
  (existsb (String.eqb k) global_keys = false ->
   output_buffer (shell st') = output_buffer (shell st)
   /\ follow_tail (shell st') = follow_tail (shell st))
  /\ (k <> "c-c"%string -> input_buffer (shell st') = input_buffer (shell st)).
Proof.
  intros Hin. apply matches_in_table in Hin.
  destruct Hin as (b & Hb & <- & <- & Hg). cbv zeta.
  cbn [key_bindings In] in Hb.
  repeat (destruct Hb as [<- | Hb];
          [ cbn [handler key] in *;
            split; intros Hk;
            try discriminate Hk; try (now destruct Hk);
            destruct st as [[m ft ib ob lb ltc wc lvc] [ex inv rw ts]];
            unfold_handlers; cbn [shell app]; split_branches;
            try split; reflexivity
          | ]).
  destruct Hb.
Qed.

Lemma mode_keys_leave_console_witness :
  output_buffer (shell (run [] h_log_tail_f tailing_state)) = empty_buffer
  /\ follow_tail (shell (run [] h_log_tail_f tailing_state)) = true.
Proof.
  apply (mode_keys_leave_console [] "f" h_log_tail_f tailing_state).
  - cbn. tauto.
  - reflexivity.
Defined.

(** ** Scrolling, press after press *)

Lemma pageup_step (st : State) :
  out_len (handle_pageup st) = out_len st
  /\ page_chars (handle_pageup st) = page_chars st
  /\ out_cursor (handle_pageup st)
     = Z.max 0 (Z.min (out_len st) (Z.max 0 (out_cursor st - page_chars st))).
Proof.
  unfold out_len, out_cursor. rewrite handle_pageup_output.
  destruct (set_cursor_position_spec (output_buffer (shell st)) (pageup_new_pos st))
    as [Ht Hc].
  unfold Buffer.len. rewrite Ht, Hc. repeat split.
Qed.

Lemma pagedown_step (st : State) :
  out_len (handle_pagedown st) = out_len st
  /\ page_chars (handle_pagedown st) = page_chars st
  /\ out_cursor (handle_pagedown st)
     = Z.max 0 (Z.min (out_len st) (Z.min (out_len st) (out_cursor st + page_chars st))).
Proof.
  unfold out_len, out_cursor. rewrite handle_pagedown_output.
  destruct (set_cursor_position_spec (output_buffer (shell st)) (pagedown_new_pos st))
    as [Ht Hc].
  unfold Buffer.len. rewrite Ht, Hc. repeat split.
Qed.

Lemma out_len_nonneg (st : State) : 0 <= out_len st.
Proof. unfold out_len, Buffer.len, slen. lia. Qed.

(** X10: on a terminal of at least 4 rows and with the cursor inside the text,
    Page Up followed by Page Down brings the cursor back when there was a
    full page above it, and Page Down followed by Page Up brings it back when
    there was a full page below it. *)
Theorem scroll_round_trip (st : State) :
  Buffer.wf (output_buffer (shell st)) -> 0 <= page_rows st ->
  (page_chars st <= out_cursor st ->
   out_cursor (handle_pagedown (handle_pageup st)) = out_cursor st)
  /\ (out_cursor st + page_chars st <= out_len st ->
      out_cursor (handle_pageup (handle_pagedown st)) = out_cursor st).
Proof.
  intros Hwf Hrows.
  assert (Hp : 0 <= page_chars st) by (unfold page_chars; lia).
  unfold Buffer.wf in Hwf. fold (out_cursor st) (out_len st) in Hwf.
  destruct (pageup_step st) as (Lu & Pu & Cu).
  destruct (pagedown_step st) as (Ld & Pd & Cd).
  destruct (pagedown_step (handle_pageup st)) as (_ & _ & Cdu).
  destruct (pageup_step (handle_pagedown st)) as (_ & _ & Cud).
  split; intros H.
  - rewrite Cdu, Lu, Pu, Cu. clear - Hwf Hp H. lia.
  - rewrite Cud, Ld, Pd, Cd. clear - Hwf Hp H. lia.
Qed.

Lemma scroll_round_trip_witness :
  out_cursor (handle_pagedown (handle_pageup (scrolled_state 1700 false))) = 1700
  /\ out_cursor (handle_pageup (handle_pagedown (scrolled_state 100 false))) = 100.
Proof.
  split.
  - apply (scroll_round_trip (scrolled_state 1700 false)).
    + vm_compute. split; discriminate.
    + vm_compute. discriminate.
    + vm_compute. discriminate.
  - apply (scroll_round_trip (scrolled_state 100 false)).
    + vm_compute. split; discriminate.
    + vm_compute. discriminate.
    + vm_compute. discriminate.
Defined.



(** X12: on a terminal of at least 4 rows and with the cursor inside the text,
    n presses of Page Down leave the cursor n pages lower, stopping at the
    end of the text; follow-tail is then on if it was on before, or if at
    least one press was made and the cursor ended within 10 characters of the
    end, and off otherwise. *)
Theorem pagedown_repeated (st : State) (n : nat) :
  Buffer.wf (output_buffer (shell st)) -> 0 <= page_rows st ->
  let c := Z.min (out_len st) (out_cursor st + Z.of_nat n * page_chars st) in
  out_cursor (Nat.iter n handle_pagedown st) = c
  /\ follow_tail (shell (Nat.iter n handle_pagedown st))
     = (follow_tail (shell st) || ((0 <? n)%nat && (out_len st - 10 <=? c))).
Proof.
  intros Hwf Hrows.
  assert (Hp : 0 <= page_chars st) by (unfold page_chars; lia).
  unfold Buffer.wf in Hwf. fold (out_cursor st) (out_len st) in Hwf.
  cbv zeta.
  enough (H : out_len (Nat.iter n handle_pagedown st) = out_len st
              /\ page_chars (Nat.iter n handle_pagedown st) = page_chars st
              /\ out_cursor (Nat.iter n handle_pagedown st)
                 = Z.min (out_len st) (out_cursor st + Z.of_nat n * page_chars st)
              /\ follow_tail (shell (Nat.iter n handle_pagedown st))
                 = (follow_tail (shell st)
                    || ((0 <? n)%nat
                        && (out_len st - 10
                            <=? Z.min (out_len st)
                                      (out_cursor st + Z.of_nat n * page_chars st)))))
    by (split; apply H).
  induction n as [| n (IHl & IHp & IHc & IHf)].
  - cbn [Nat.iter nat_rect Nat.ltb Nat.leb andb]. rewrite orb_false_r.
    repeat split. lia.
  - rewrite Nat.iter_succ.
    destruct (pagedown_step (Nat.iter n handle_pagedown st)) as (Ls & Ps & Cs).
    rewrite handle_pagedown_follow_tail.
    fold (out_len (Nat.iter n handle_pagedown st)).
    fold (out_cursor (handle_pagedown (Nat.iter n handle_pagedown st))).
    rewrite Ls, Ps, Cs, IHl, IHp, IHc, IHf.
    assert (E : Z.max 0 (Z.min (out_len st)
                  (Z.min (out_len st)
                     (Z.min (out_len st) (out_cursor st + Z.of_nat n * page_chars st)
                      + page_chars st)))
                = Z.min (out_len st) (out_cursor st + Z.of_nat (S n) * page_chars st))
      by (clear - Hwf Hp; nia).
    rewrite E. repeat split.
    change (0 <? S n)%nat with true. cbn [andb].
    destruct (Z.leb_spec (out_len st - 10)
                (Z.min (out_len st) (out_cursor st + Z.of_nat (S n) * page_chars st)))
      as [Hge | Hlt].
    + now rewrite orb_true_r.
    + rewrite orb_false_r.
      destruct (Z.leb_spec (out_len st - 10)
                  (Z.min (out_len st) (out_cursor st + Z.of_nat n * page_chars st)));
        [clear - Hwf Hp Hlt H; nia |].
      now rewrite andb_false_r, orb_false_r.
Qed.

Lemma pagedown_repeated_witness :
  out_cursor (Nat.iter 2 handle_pagedown (scrolled_state 100 false)) = 2000
  /\ follow_tail (shell (Nat.iter 2 handle_pagedown (scrolled_state 100 false))) = true.
Proof.
  destruct (pagedown_repeated (scrolled_state 100 false) 2) as [Hc Hf].
  - vm_compute. split; discriminate.
  - vm_compute. discriminate.
  - split; [rewrite Hc | rewrite Hf]; reflexivity.
Defined.

(** ** Scrolling at the edges *)

(** X13: on a terminal of fewer than 4 rows the page has a negative number
    of lines and the two keys trade places: with the cursor inside the text,
    Page Up moves it towards the end (stopping there) and Page Down moves it
    towards the start (stopping at 0), each by (4 - rows) * 80 characters;
    Page Up still turns follow-tail off. *)
Theorem small_terminal_inverts_scrolling (st : State) :
  Buffer.wf (output_buffer (shell st)) -> rows (app st) < 4 ->
  let d := (4 - rows (app st)) * 80 in
  out_cursor (handle_pageup st) = Z.min (out_len st) (out_cursor st + d)
  /\ out_cursor (handle_pagedown st) = Z.max 0 (out_cursor st - d)
  /\ follow_tail (shell (handle_pageup st)) = false.
Proof.
  intros Hwf Hrows. cbv zeta.
  unfold Buffer.wf in Hwf. fold (out_cursor st) (out_len st) in Hwf.
  destruct (pageup_step st) as (_ & _ & Cu).
  destruct (pagedown_step st) as (_ & _ & Cd).
  rewrite Cu, Cd. unfold page_chars, page_rows.
  clear Cu Cd. repeat split; lia.
Qed.

Lemma small_terminal_inverts_scrolling_witness :
  out_cursor (handle_pageup (on_terminal 3 (scrolled_state 100 true))) = 180
  /\ out_cursor (handle_pagedown (on_terminal 3 (scrolled_state 100 true))) = 20.
Proof.
  destruct (small_terminal_inverts_scrolling (on_terminal 3 (scrolled_state 100 true)))
    as (Hu & Hd & _).
  - vm_compute. split; discriminate.
  - reflexivity.
  - split; [rewrite Hu | rewrite Hd]; reflexivity.
Defined.

(** X14: over an output of at most 10 characters (an empty one included),
    Page Down turns follow-tail on whatever the cursor, the terminal height
    and the flag were. *)
Theorem pagedown_short_output_follows (st : State) :
  out_len st <= 10 -> follow_tail (shell (handle_pagedown st)) = true.
Proof.
  intros Hl. rewrite handle_pagedown_follow_tail.
  destruct (pagedown_step st) as (_ & _ & Cd).
  fold (out_len st) (out_cursor (handle_pagedown st)). rewrite Cd.
  destruct (Z.leb_spec (out_len st - 10)
              (Z.max 0 (Z.min (out_len st)
                          (Z.min (out_len st) (out_cursor st + page_chars st)))));
    [reflexivity | clear Cd; lia].
Qed.

Lemma pagedown_short_output_follows_witness :
  follow_tail (shell (handle_pagedown (mkState normal_shell sample_app))) = true.
Proof.
  apply (pagedown_short_output_follows (mkState normal_shell sample_app)).
  vm_compute. discriminate.
Defined.

(** ** The input line and the log tail buffer *)

(** X15: after Ctrl+C the input text is empty whatever it was, so pressing
    Ctrl+C twice always ends on the branch for an empty input: the second
    press leaves the input buffer alone and changes only the output buffer. *)
Theorem ctrl_c_leaves_input_empty (st : State) :
  Buffer.text (input_buffer (shell (handle_ctrl_c st))) = EmptyString
  /\ input_buffer (shell (handle_ctrl_c (handle_ctrl_c st)))
     = input_buffer (shell (handle_ctrl_c st))
  /\ handle_ctrl_c (handle_ctrl_c st)
     = on_shell (_append_output quit_hint) (handle_ctrl_c st).
Proof.
  assert (E : Buffer.text (input_buffer (shell (handle_ctrl_c st))) = EmptyString).
  { unfold handle_ctrl_c.
    destruct (Buffer.text (input_buffer (shell st))) eqn:Et; cbn; [exact Et | reflexivity]. }
  split; [exact E |].
  assert (E2 : handle_ctrl_c (handle_ctrl_c st)
               = on_shell (_append_output quit_hint) (handle_ctrl_c st)).
  { generalize dependent (handle_ctrl_c st). intros st1 E1.
    unfold handle_ctrl_c. now rewrite E1. }
  split; [| exact E2]. rewrite E2. reflexivity.
Qed.

Lemma substring_split (s : string) :
  forall c, (c <= String.length s)%nat ->
            (substring 0 c s ++ substring c (String.length s - c) s)%string = s.
Proof.
  induction s as [| a s IH]; intros [| c] H; cbn in *; try reflexivity; try lia.
  - f_equal. clear IH H. induction s as [| b s IH]; cbn; [reflexivity | now rewrite IH].
  - f_equal. apply IH. lia.
Qed.

(** X16: the f handler of log tail mode loses no log text: with the cursor
    inside the text, the text after it is the text before the cursor, the
    notice, and the text after the cursor; the cursor stands right behind the
    notice and is still inside the text. *)
Theorem log_tail_f_inserts_at_cursor (st : State) :
  Buffer.wf (log_tail_buffer (shell st)) ->
  let b := log_tail_buffer (shell st) in
  let b' := log_tail_buffer (shell (handle_log_tail_f st)) in
  exists before after,
    Buffer.text b = (before ++ after)%string
    /\ slen before = Buffer.cursor_position b
    /\ Buffer.text b' = (before ++ filter_notice ++ after)%string
    /\ Buffer.cursor_position b' = slen before + slen filter_notice
    /\ Buffer.wf b'.
Proof.
  intros Hwf. cbv zeta.
  set (b := log_tail_buffer (shell st)) in *.
  unfold Buffer.wf, Buffer.len, slen in Hwf.
  exists (substring 0 (Z.to_nat (Buffer.cursor_position b)) (Buffer.text b)),
         (substring (Z.to_nat (Buffer.cursor_position b))
                    (String.length (Buffer.text b) - Z.to_nat (Buffer.cursor_position b))
                    (Buffer.text b)).
  assert (Hlen : slen (substring 0 (Z.to_nat (Buffer.cursor_position b)) (Buffer.text b))
                 = Buffer.cursor_position b).
  { unfold slen. rewrite length_substring by lia. lia. }
  split; [symmetry; apply substring_split; lia |].
  split; [exact Hlen |].
  split; [reflexivity |].
  split; [cbn; fold b; now rewrite Hlen |].
  apply (insert_text_len b filter_notice). unfold Buffer.wf, Buffer.len, slen. exact Hwf.
Qed.

Lemma log_tail_f_inserts_at_cursor_witness :
  exists before after,
    Buffer.text two_lines = (before ++ after)%string
    /\ slen before = 6
    /\ Buffer.text (log_tail_buffer (shell (handle_log_tail_f tailing_state)))
       = (before ++ filter_notice ++ after)%string
    /\ Buffer.cursor_position (log_tail_buffer (shell (handle_log_tail_f tailing_state)))
       = slen before + slen filter_notice
    /\ Buffer.wf (log_tail_buffer (shell (handle_log_tail_f tailing_state))).
Proof.
  apply (log_tail_f_inserts_at_cursor tailing_state).
  vm_compute. split; discriminate.
Defined.

(** ** The cursors stay inside the texts *)

Lemma append_output_wf (s : string) (sh : Shell) :
  Buffer.wf (output_buffer sh) -> Buffer.wf (output_buffer (_append_output s sh)).
Proof.
  unfold Buffer.wf, Buffer.len, slen, _append_output. cbn.
  rewrite length_append. intros H.
  destruct (follow_tail sh); unfold slen; rewrite ?length_append; lia.
Qed.

Lemma empty_buffer_wf : Buffer.wf (Buffer.mk EmptyString 0).
Proof. unfold Buffer.wf, Buffer.len, slen. cbn. lia. Qed.

(** X17: every handler keeps the cursors of the input buffer, the output
    buffer and the log tail buffer inside their texts.  (For Ctrl+C and Ctrl+T
    the appended output goes through [_append_output].) *)
Theorem handlers_keep_buffers_wf (severities : list string) (h : Handler)
    (st : State) :
  buffers_wf (shell st) -> buffers_wf (shell (run severities h st)).
Proof.
  unfold buffers_wf. intros (Hi & Ho & Hl).
  destruct h; cbn [run];
    try (unfold_handlers; cbn [shell]; split_branches; cbn;
         (split; [| split]); assumption).
  - (* Ctrl+C *)
    unfold handle_ctrl_c.
    destruct (Buffer.text (input_buffer (shell st))); cbn [on_shell shell].
    + split; [| split]; try assumption. now apply append_output_wf.
    + split; [| split]; try assumption. apply empty_buffer_wf.
  - (* Ctrl+L *)
    cbn. split; [| split]; try assumption. apply empty_buffer_wf.
  - (* Ctrl+T *)
    unfold handle_ctrl_t. cbn [on_shell shell].
    split; [| split]; try assumption.
    apply (append_output_wf _ (set_follow_tail (negb (follow_tail (shell st))) (shell st))).
    exact Ho.
  - (* Page Up *)
    split; [| split]; try assumption.
    rewrite handle_pageup_output. apply set_cursor_position_wf.
  - (* Page Down *)
    assert (E : input_buffer (shell (handle_pagedown st)) = input_buffer (shell st)
                /\ log_tail_buffer (shell (handle_pagedown st))
                   = log_tail_buffer (shell st)).
    { unfold handle_pagedown. cbn. destruct (_ <=? _); split; reflexivity. }
    destruct E as [-> ->].
    split; [| split]; try assumption.
    rewrite handle_pagedown_output. apply set_cursor_position_wf.
  - (* f in log tail mode *)
    split; [| split]; try assumption.
    apply (insert_text_len _ filter_notice Hl).
Qed.

Lemma handlers_keep_buffers_wf_witness :
  buffers_wf (shell (run [] h_log_tail_f tailing_state)).
Proof.
  apply (handlers_keep_buffers_wf [] h_log_tail_f tailing_state).
  split; [| split]; vm_compute; split; discriminate.
Defined.

(** ** Clearing the screen and refreshing the log view *)

(** X18: Ctrl+L empties the output buffer, with its cursor at 0, requests a
    redraw and leaves everything else, follow-tail included, as it was; a
    second Ctrl+L changes nothing more in the shell, and Page Up and Page Down
    then keep the cursor at 0. *)
Theorem ctrl_l_clears_output (st : State) :
  let st' := handle_ctrl_l st in
  output_buffer (shell st') = Buffer.mk EmptyString 0
  /\ shell st' = set_output_buffer (Buffer.mk EmptyString 0) (shell st)
  /\ invalidations (app st') = S (invalidations (app st))
  /\ shell (handle_ctrl_l st') = shell st'
  /\ out_cursor (handle_pageup st') = 0
  /\ out_cursor (handle_pagedown st') = 0.
Proof.
  cbv zeta. repeat split.
  - destruct (pageup_step (handle_ctrl_l st)) as (_ & _ & ->).
    change (out_len (handle_ctrl_l st)) with 0. lia.
  - destruct (pagedown_step (handle_ctrl_l st)) as (_ & _ & ->).
    change (out_len (handle_ctrl_l st)) with 0. lia.
Qed.

(** X19: with a log view controller in place, each of the eight log view
    handlers for Page Up, Page Down, Home, End, l, c, r and Space creates
    exactly one task, the refresh of the controller, after the tasks already
    there, and requests no redraw itself; the r handler changes nothing in the
    shell. *)
Theorem log_view_actions_refresh_once (severities : list string) (h : Handler)
    (st : State) (c : LogViewController.t) :
  In h log_view_actions ->
  log_view_controller (shell st) = Some c ->
  let st' := run severities h st in
  tasks (app st') = tasks (app st) ++ [log_view_refresh]
  /\ invalidations (app st') = invalidations (app st)
  /\ (h = h_log_view_r -> shell st' = shell st).
Proof.
  intros Hin Hc. cbv zeta.
  destruct st as [[m ft ib ob lb ltc wc lvc] [ex inv rw ts]].
  cbn in Hc. subst lvc.
  cbn in Hin.
  repeat (destruct Hin as [<- | Hin];
          [repeat split; intros E; (discriminate E || reflexivity) |]).
  destruct Hin.
Qed.

Lemma log_view_actions_refresh_once_witness :
  tasks (app (run [] h_log_view_home (log_view_at 4 7))) = [log_view_refresh].
Proof.
  apply (log_view_actions_refresh_once [] h_log_view_home (log_view_at 4 7)
           (LogViewController.mk 4 7 None None None false)).
  - cbn. tauto.
  - reflexivity.
Defined.
